(** * The [checks] module of community.healthchecksio

    A shallow embedding of [plugins/modules/checks.py] and the properties
    its specification states about it.

    The module is a thin client: it reads a parameter dictionary, issues at
    most one HTTP request through the collection's helper and turns the
    status code of the answer into an Ansible result.  The embedding keeps
    that shape:

    - [module.params] is a finite map from names to Python values;
    - the helper's transport is a function from requests to responses, and
      every request that is issued is appended to a log;
    - [exit_json] and [fail_json] end the run (in Ansible both print the
      result and call [sys.exit]), and so does an uncaught exception. *)

From Stdlib Require Import ZArith Ascii String.
From stdpp Require Import gmap strings pretty list fin_maps.

Open Scope string_scope.

(** ** Python built-ins used by the module *)

Module Py.

(** [s.split(c)] for a one-character separator: one segment more than
    there are separators, empty segments kept. *)
Fixpoint split (c : ascii) (s : string) : list string :=
  match s with
  | "" => [""]
  | String a s' =>
      if bool_decide (a = c) then "" :: split c s'
      else match split c s' with
           | [] => [String a ""]
           | w :: ws => String a w :: ws
           end
  end.

(** [sep.join(l)] for a list of strings. *)
Definition join (sep : string) (l : list string) : string :=
  String.concat sep l.

(** ["c1", "c2", ...]: the characters of a string, as Python iterates
    over it. *)
Fixpoint chars (s : string) : list string :=
  match s with
  | "" => []
  | String a s' => String a "" :: chars s'
  end.

End Py.

(** ** Data model *)

(** Values found in [module.params].  The argument spec of the module
    declares strings, integers, booleans and lists of strings; a parameter
    without a default is [None]. *)
Inductive pyval :=
| PNone
| PBool (b : bool)
| PInt (n : Z)
| PStr (s : string)
| PList (l : list string).

#[global] Instance pyval_eq_dec : EqDecision pyval.
Proof. solve_decision. Defined.

(** A decoded JSON document, as [Response.json] hands it to the module
    ([None] when the body is not JSON; numbers are kept integral). *)
#[warnings="-register-all"]
Inductive jvalue :=
| JNull
| JBool (b : bool)
| JNum (n : Z)
| JStr (s : string)
| JList (l : list jvalue)
| JDict (m : gmap string jvalue).

Inductive http_method := POST | DELETE.

(** One call on the helper: [rest.post(endpoint, data=...)],
    [rest.post(endpoint)] or [rest.delete(endpoint)]. *)
Record request := Request {
  req_method : http_method;
  req_endpoint : string;
  req_data : option (gmap string pyval)
}.

Record Response := {
  status_code : Z;
  json : jvalue
}.

(** The keyword arguments of [exit_json] and [fail_json]. *)
Record result := Result {
  changed : bool;
  msg : option string;
  data : option jvalue
}.

Inductive exn := KeyError | AttributeError | IndexError | TypeError.

(** Why argument validation turned an invocation down. *)
Inductive arg_error :=
| Unsupported
| MissingRequired
| InvalidChoice
| RequiredIf (key : string) (val : pyval) (missing : list string).

(** How an invocation ends. *)
Inductive outcome :=
| ExitJson (r : result)
| FailJson (r : result)
| Raised (e : exn)
| Rejected (e : arg_error)
| Returned.

Record AnsibleModule := {
  params : gmap string pyval;
  check_mode : bool
}.

(** ** Runs: a request log and an early exit *)

Inductive step (A : Type) :=
| Next (a : A)
| Halt (o : outcome).
Arguments Next {A} a.
Arguments Halt {A} o.

Definition M (A : Type) : Type := list request → step A * list request.

#[global] Instance M_ret : MRet M := λ A a log, (Next a, log).

#[global] Instance M_bind : MBind M := λ A B k m log,
  match m log with
  | (Next a, log') => k a log'
  | (Halt o, log') => (Halt o, log')
  end.

Definition halt {A} (o : outcome) : M A := λ log, (Halt o, log).

Definition raise {A} (e : exn) : M A := halt (Raised e).

Definition exit_json (changed : bool) (msg : option string)
    (data : option jvalue) : M unit :=
  halt (ExitJson (Result changed msg data)).

Definition fail_json (changed : bool) (msg : string) : M unit :=
  halt (FailJson (Result changed (Some msg) None)).

(** The result of a whole run, started on an empty log. *)
Definition exec (m : M unit) : outcome * list request :=
  match m [] with
  | (Next _, log) => (Returned, log)
  | (Halt o, log) => (o, log)
  end.

(** [d.pop(k)]: the value and the dictionary without [k]. *)
Definition dict_pop (k : string) (d : gmap string pyval)
    : M (pyval * gmap string pyval) :=
  match d !! k with
  | Some v => mret (v, delete k d)
  | None => raise KeyError
  end.

(** [del d[k]]. *)
Definition dict_del (k : string) (d : gmap string pyval)
    : M (gmap string pyval) :=
  match d !! k with
  | Some _ => mret (delete k d)
  | None => raise KeyError
  end.

(** [d.get(k)] and [d.get(k, dflt)]. *)
Definition dict_get (k : string) (d : gmap string pyval) : pyval :=
  default PNone (d !! k).

Definition dict_get_or (k : string) (dflt : pyval) (d : gmap string pyval)
    : pyval :=
  default dflt (d !! k).

(** [x == "literal"]. *)
Definition eq_str (x : pyval) (s : string) : bool :=
  match x with
  | PStr t => bool_decide (t = s)
  | _ => false
  end.

(** [" ".join(tags)]. *)
Definition join_tags (tags : pyval) : M string :=
  match tags with
  | PList l => mret (Py.join " " l)
  | PStr s => mret (Py.join " " (Py.chars s))
  | _ => raise TypeError
  end.

(** [json_data.get("ping_url").split("/")[3]]. *)
Definition ping_uuid (json_data : jvalue) : M string :=
  match json_data with
  | JDict d =>
      match d !! "ping_url" with
      | Some (JStr url) =>
          match Py.split "/" url !! 3%nat with
          | Some seg => mret seg
          | None => raise IndexError
          end
      | _ => raise AttributeError
      end
  | _ => raise AttributeError
  end.

(** [str(v)], which is also what ["{0}".format(v)] inserts.  Python's
    rendering of a list (quoting and escaping of its elements) is left as
    a parameter: the module only ever formats strings and integers. *)
Definition py_str (repr_list : list string → string) (v : pyval) : string :=
  match v with
  | PNone => "None"
  | PBool true => "True"
  | PBool false => "False"
  | PInt n => pretty n
  | PStr s => s
  | PList l => repr_list l
  end.

(** ** class Checks *)

Module Checks.

Record t := {
  module : AnsibleModule;
  api_token : pyval
}.

Section Methods.

(** The transport behind [HealthchecksioHelper], which lives in the
    collection's [module_utils]: what the remote service answers to a
    request.  The helper owns authentication, base URL, retries and
    time-outs; building it is taken to issue no request. *)
Variable rest : request → Response.
Variable repr_list : list string → string.

Definition send (rq : request) : M Response :=
  λ log, (Next (rest rq), (log ++ [rq])%list).

(** [self.rest.post(endpoint, data=...)] and [self.rest.post(endpoint)]. *)
Definition post (endpoint : string) (data : option (gmap string pyval))
    : M Response :=
  send (Request POST endpoint data).

(** [self.rest.delete(endpoint)]. *)
Definition rest_delete (endpoint : string) : M Response :=
  send (Request DELETE endpoint None).

Definition __init__ (module : AnsibleModule) : M t :=
  '(api_token, remaining) ← dict_pop "api_token" (params module);
  mret {| module := {| params := remaining;
                       check_mode := check_mode module |};
          api_token := api_token |}.

Definition create (self : t) : M unit :=
  (if check_mode (module self)
   then exit_json false None (Some (JDict ∅))
   else mret ());;
  let endpoint := "checks/" in
  let request_params := params (module self) in
  request_params ← dict_del "uuid" request_params;
  let tags := dict_get_or "tags" (PList []) (params (module self)) in
  joined ← join_tags tags;
  let request_params := <["tags" := PStr joined]> request_params in
  response ← post endpoint (Some request_params);
  let json_data := json response in
  let status_code := status_code response in
  uuid ← ping_uuid json_data;
  (if bool_decide (status_code = 200%Z) then
     exit_json true
       (Some ("Existing check " +:+ uuid +:+ " found and updated"))
       (Some json_data)
   else if bool_decide (status_code = 201%Z) then
     exit_json true
       (Some ("New check " +:+ uuid +:+ " created"))
       (Some json_data)
   else
     fail_json false
       ("Failed to create or update delete check [HTTP "
          +:+ pretty status_code +:+ "]"));;
  exit_json true None (Some json_data).

Definition delete (self : t) : M unit :=
  (if check_mode (module self)
   then exit_json false None (Some (JDict ∅))
   else mret ());;
  let uuid := dict_get "uuid" (params (module self)) in
  let endpoint := "checks/" +:+ py_str repr_list uuid in
  response ← rest_delete endpoint;
  let status_code := status_code response in
  if bool_decide (status_code = 200%Z) then
    exit_json true
      (Some ("Check " +:+ py_str repr_list uuid +:+ " successfully deleted"))
      None
  else if bool_decide (status_code = 404%Z) then
    exit_json false
      (Some ("Check " +:+ py_str repr_list uuid +:+ " not found"))
      None
  else
    fail_json false
      ("Failed delete check " +:+ py_str repr_list uuid
         +:+ " [HTTP " +:+ pretty status_code +:+ "]").

Definition pause (self : t) : M unit :=
  (if check_mode (module self)
   then exit_json false None (Some (JDict ∅))
   else mret ());;
  let uuid := dict_get "uuid" (params (module self)) in
  let endpoint := "checks/" +:+ py_str repr_list uuid +:+ "/pause" in
  response ← post endpoint None;
  let status_code := status_code response in
  if bool_decide (status_code = 200%Z) then
    exit_json true
      (Some ("Check " +:+ py_str repr_list uuid +:+ " successfully paused"))
      None
  else if bool_decide (status_code = 404%Z) then
    exit_json false
      (Some ("Check " +:+ py_str repr_list uuid +:+ " not found"))
      None
  else
    fail_json false
      ("Failed delete check " +:+ py_str repr_list uuid
         +:+ " [HTTP " +:+ pretty status_code +:+ "]").

End Methods.

End Checks.

(** ** run and main *)

Section Run.

Variable rest : request → Response.
Variable repr_list : list string → string.

Definition run (module : AnsibleModule) : M unit :=
  '(state, remaining) ← dict_pop "state" (params module);
  let module := {| params := remaining; check_mode := check_mode module |} in
  checks ← Checks.__init__ module;
  if eq_str state "present" then Checks.create rest checks
  else if eq_str state "absent" then Checks.delete rest repr_list checks
  else if eq_str state "pause" then Checks.pause rest repr_list checks
  else mret ().

End Run.

(** One entry of an argument spec: [dict(default=..., required=...,
    choices=...)].  An entry without a default has [default=None]. *)
Record arg := Arg {
  arg_default : pyval;
  arg_required : bool;
  arg_choices : option (list pyval)
}.

(** The entries [main] adds with [argument_spec.update(...)]. *)
Definition module_arguments : list (string * arg) :=
  [ ("state", Arg (PStr "present") false
                (Some [PStr "present"; PStr "absent"; PStr "pause"]));
    ("name", Arg (PStr "") false None);
    ("tags", Arg (PList []) false None);
    ("desc", Arg (PStr "") false None);
    ("timeout", Arg (PInt 86400) false None);
    ("grace", Arg (PInt 3600) false None);
    ("schedule", Arg (PStr "* * * * *") false None);
    ("tz", Arg (PStr "UTC") false None);
    ("manual_resume", Arg (PBool false) false None);
    ("methods", Arg (PStr "") false None);
    ("channels", Arg (PStr "") false None);
    ("unique", Arg (PList []) false None);
    ("uuid", Arg (PStr "") false None) ].

Definition required_if : list (string * pyval * list string) :=
  [ ("state", PStr "absent", ["uuid"]);
    ("state", PStr "pause", ["uuid"]) ].

(** *** AnsibleModule(argument_spec=..., required_if=...)

    Argument handling belongs to Ansible ([ansible.module_utils.basic]),
    not to this collection.  The model keeps the steps [main] relies on, in
    the order the library runs them: unknown parameters are refused;
    defaults other than [None] are filled in; required arguments, choices
    and the [required_if] rules are checked; what is still unset becomes
    [None].  A [required_if] rule looks at which keys the dictionary holds
    at that point.  Values are taken to have their declared types already
    (the library's conversions are not modelled). *)

Definition set_defaults (pre : bool) (spec : gmap string arg)
    (p : gmap string pyval) : gmap string pyval :=
  if pre then
    p ∪ omap (λ a, if decide (arg_default a = PNone) then None
                   else Some (arg_default a)) spec
  else
    p ∪ (arg_default <$> spec).

Definition required_ok (spec : gmap string arg) (p : gmap string pyval)
    : bool :=
  bool_decide (map_Forall
    (λ k a, arg_required a = true → is_Some (p !! k)) spec).

Definition choice_ok (p : gmap string pyval) (k : string) (a : arg) : Prop :=
  match arg_choices a, p !! k with
  | Some choices, Some v => v ∈ choices
  | _, _ => True
  end.

#[global] Instance choice_ok_dec p k a : Decision (choice_ok p k a).
Proof. unfold choice_ok. destruct (arg_choices a), (p !! k); apply _. Defined.

Definition choices_ok (spec : gmap string arg) (p : gmap string pyval)
    : bool :=
  bool_decide (map_Forall (choice_ok p) spec).

Fixpoint check_required_if (rules : list (string * pyval * list string))
    (p : gmap string pyval) : option arg_error :=
  match rules with
  | [] => None
  | (key, val, requirements) :: rules' =>
      let missing :=
        if bool_decide (p !! key = Some val)
        then filter (λ r, p !! r = None) requirements
        else [] in
      match missing with
      | [] => check_required_if rules' p
      | _ => Some (RequiredIf key val missing)
      end
  end.

Definition new_module (spec : gmap string arg)
    (rules : list (string * pyval * list string))
    (args : gmap string pyval) (check : bool) : M AnsibleModule :=
  if negb (bool_decide (dom args ⊆ dom spec)) then halt (Rejected Unsupported)
  else
    let p := set_defaults true spec args in
    if negb (required_ok spec p) then halt (Rejected MissingRequired)
    else if negb (choices_ok spec p) then halt (Rejected InvalidChoice)
    else match check_required_if rules p with
         | Some e => halt (Rejected e)
         | None => mret {| params := set_defaults false spec p;
                           check_mode := check |}
         end.

(** Modelled from the spec: [HealthchecksioHelper.healthchecksio_argument_spec]
    lives in the collection's [module_utils] and is not part of the module.
    The specification leaves token resolution to the helper; the module
    only shows that the parameters carry an [api_token] entry, which
    [Checks.__init__] pops.  The model declares that one optional
    argument. *)
Definition healthchecksio_argument_spec : gmap string arg :=
  {[ "api_token" := Arg PNone false None ]}.

Section Main.

Variable helper_argument_spec : gmap string arg.
Variable rest : request → Response.
Variable repr_list : list string → string.

(** [argument_spec.update(...)]: the module's entries win. *)
Definition argument_spec : gmap string arg :=
  list_to_map module_arguments ∪ helper_argument_spec.

Definition main (args : gmap string pyval) (check : bool) : M unit :=
  module ← new_module argument_spec required_if args check;
  run rest repr_list module.

End Main.

(** ** The identifier in a ping URL, in the specification's words *)

(** The text after the [n]-th occurrence of [c] in [s], if there are that
    many. *)
Fixpoint after_nth (c : ascii) (n : nat) (s : string) : option string :=
  match n with
  | O => Some s
  | S n' =>
      match s with
      | "" => None
      | String a s' =>
          if bool_decide (a = c) then after_nth c n' s' else after_nth c n s'
      end
  end.

(** The text before the first [c] of [s] (all of [s] when there is none). *)
Fixpoint upto (c : ascii) (s : string) : string :=
  match s with
  | "" => ""
  | String a s' => if bool_decide (a = c) then "" else String a (upto c s')
  end.

(** The path segment following the [n]-th ['/']. *)
Definition segment_after_slash (n : nat) (url : string) : option string :=
  upto "/" <$> after_nth "/" n url.

(** [needle] occurs in [s]. *)
Definition contains (needle s : string) : Prop :=
  ∃ pre post, s = pre +:+ needle +:+ post.

(** A body without a usable [ping_url]: not a dictionary, or a dictionary
    with no such key. *)
Definition lacks_ping_url (body : jvalue) : Prop :=
  match body with
  | JDict d => d !! "ping_url" = None
  | _ => True
  end.

(** ** What [run] hands to the three operations *)

(** The [Checks] object [run] builds: [state] and [api_token] have been
    popped from the parameters. *)
Definition checks_of (m : AnsibleModule) (token : pyval) : Checks.t :=
  {| Checks.module :=
       {| params := delete "api_token" (delete "state" (params m));
          check_mode := check_mode m |};
     Checks.api_token := token |}.

(** The parameters a validated invocation carries, as far as the code
    depends on them: the requested state, a token entry, the uuid and the
    tags with their declared types. *)
Record ready (m : AnsibleModule) (state uuid : string) (tags : list string)
    : Prop := {
  ready_state : params m !! "state" = Some (PStr state);
  ready_token : is_Some (params m !! "api_token");
  ready_uuid : params m !! "uuid" = Some (PStr uuid);
  ready_tags : params m !! "tags" = Some (PList tags)
}.

(** The body [create] posts. *)
Definition create_body (m : AnsibleModule) (tags : list string)
    : gmap string pyval :=
  <["tags" := PStr (Py.join " " tags)]>
    (delete "uuid" (delete "api_token" (delete "state" (params m)))).

(** ** Data of the worked examples *)

Definition no_repr (l : list string) : string := "".

Definition always (r : Response) (rq : request) : Response := r.

Definition ready_module (state uuid : string) : AnsibleModule :=
  {| params := {[ "state" := PStr state; "api_token" := PStr "token";
                  "uuid" := PStr uuid; "tags" := PList ["db"; "nightly"];
                  "name" := PStr "nightly-backup" ]};
     check_mode := false |}.

(** The answer of the specification's example: 201 with a ping URL. *)
Definition example_created : Response :=
  {| status_code := 201;
     json := JDict {[ "ping_url" := JStr "https://x/ping/UUID-1/" ]} |}.

Definition example_present_args : gmap string pyval :=
  {[ "state" := PStr "present"; "name" := PStr "nightly-backup";
     "timeout" := PInt 86400 ]}.

Definition example_upsert_args : gmap string pyval :=
  {[ "state" := PStr "present"; "api_token" := PStr "secret";
     "name" := PStr "nightly-backup"; "tags" := PList ["db"; "nightly"] ]}.

(** ** The ways a run can end *)

(** What [create] does with the answer to its request (from
    [json_data = response.json] to the end of the method). *)
Definition create_after (response : Response) : M unit :=
  let json_data := json response in
  let status_code := status_code response in
  uuid ← ping_uuid json_data;
  (if bool_decide (status_code = 200%Z) then
     exit_json true
       (Some ("Existing check " +:+ uuid +:+ " found and updated"))
       (Some json_data)
   else if bool_decide (status_code = 201%Z) then
     exit_json true
       (Some ("New check " +:+ uuid +:+ " created"))
       (Some json_data)
   else
     fail_json false
       ("Failed to create or update delete check [HTTP "
          +:+ pretty status_code +:+ "]"));;
  exit_json true None (Some json_data).

(** What [delete] and [pause] do with the answer to their request; [done]
    is "deleted" or "paused". *)
Definition status_after (done uuid : string) (response : Response) : M unit :=
  let status_code := status_code response in
  if bool_decide (status_code = 200%Z) then
    exit_json true (Some ("Check " +:+ uuid +:+ " successfully " +:+ done))
      None
  else if bool_decide (status_code = 404%Z) then
    exit_json false (Some ("Check " +:+ uuid +:+ " not found")) None
  else
    fail_json false
      ("Failed delete check " +:+ uuid
         +:+ " [HTTP " +:+ pretty status_code +:+ "]").

(** Endings of an operation that come before any request: a missing key,
    tags that cannot be joined, and the check-mode exit. *)
Definition early (o : outcome) : Prop :=
  o = Raised KeyError ∨ o = Raised TypeError
  ∨ o = ExitJson (Result false None (Some (JDict ∅))).

(** Endings of [run] that come before any request: the fall-through on a
    state that is none of the three, and the early endings. *)
Definition quiet (o : outcome) : Prop := o = Returned ∨ early o.

(** Endings that follow the answer [rsp] to the request. *)
Definition answered (rsp : Response) (o : outcome) : Prop :=
  (∃ e, o = Raised e ∧ (e = AttributeError ∨ e = IndexError))
  ∨ (∃ message d,
       o = ExitJson (Result true (Some message) d)
       ∧ (status_code rsp = 200%Z ∨ status_code rsp = 201%Z))
  ∨ (∃ message,
       o = ExitJson (Result false (Some message) None)
       ∧ status_code rsp = 404%Z)
  ∨ (∃ pre,
       o = FailJson (Result false
             (Some (pre +:+ "[HTTP " +:+ pretty (status_code rsp) +:+ "]"))
             None)
       ∧ status_code rsp ≠ 200%Z).

(** The requests the module sends: under [checks/], and with a body only
    on a POST, which then holds no [uuid]. *)
Definition well_formed_request (p : gmap string pyval) (rq : request)
    : Prop :=
  (∃ rest_of_path, req_endpoint rq = "checks/" +:+ rest_of_path)
  ∧ match req_data rq with
    | Some d =>
        req_method rq = POST ∧ req_endpoint rq = "checks/"
        ∧ d !! "uuid" = None
        ∧ ∀ k, k ≠ "tags" → p !! k = None → d !! k = None
    | None => True
    end.

(** How often [c] occurs in [s]. *)
Fixpoint occurrences (c : ascii) (s : string) : nat :=
  match s with
  | "" => 0
  | String a s' =>
      if bool_decide (a = c) then S (occurrences c s') else occurrences c s'
  end.

(** The create request of the worked examples. *)
Definition example_create_request : request :=
  Request POST "checks/"
    (Some (create_body (ready_module "present" "abc-123") ["db"; "nightly"])).

(** * Properties *)

(** ** Splitting and the specification's wording agree *)

Lemma split_lookup (c : ascii) (s : string) (n : nat) :
  Py.split c s !! n = upto c <$> after_nth c n s.
Proof.
  revert n. induction s as [|a s IH]; intros n.
  - destruct n; reflexivity.
  - cbn [Py.split].
    assert (Hhd : Py.split c s !! 0%nat = Some (upto c s)) 
      by (rewrite IH; destruct s; reflexivity).
    destruct n as [|n]; simpl; destruct (bool_decide (a = c)); simpl.
    + reflexivity.
    + destruct (Py.split c s) as [|w ws]; simpl in *; congruence.
    + apply IH.
    + specialize (IH (S n)).
      destruct (Py.split c s) as [|w ws]; [discriminate | exact IH].
Qed.

Lemma ping_uuid_segment (d : gmap string jvalue) (url uuid : string)
    (log : list request) :
  d !! "ping_url" = Some (JStr url) →
  segment_after_slash 3 url = Some uuid →
  ping_uuid (JDict d) log = (Next uuid, log).
Proof.
  intros Hd Hs. unfold ping_uuid. rewrite Hd.
  unfold segment_after_slash in Hs. rewrite split_lookup, Hs. reflexivity.
Qed.

Lemma run_dispatch rest repr (m : AnsibleModule) (st : string) (token : pyval)
    (log : list request) :
  params m !! "state" = Some (PStr st) →
  params m !! "api_token" = Some token →
  run rest repr m log =
    (if bool_decide (st = "present") then Checks.create rest (checks_of m token)
     else if bool_decide (st = "absent")
          then Checks.delete rest repr (checks_of m token)
     else if bool_decide (st = "pause")
          then Checks.pause rest repr (checks_of m token)
     else mret ()) log.
Proof.
  intros Hst Htok.
  unfold run, Checks.__init__, dict_pop, mbind, M_bind. rewrite Hst. simpl.
  rewrite lookup_delete_ne by done. rewrite Htok. simpl.
  reflexivity.
Qed.

Lemma popped_lookup (m : AnsibleModule) (k : string) :
  k ≠ "state" → k ≠ "api_token" →
  delete "api_token" (delete "state" (params m)) !! k = params m !! k.
Proof. intros H1 H2. by rewrite !lookup_delete_ne. Qed.

Lemma run_present rest repr m uuid tags :
  ready m "present" uuid tags → check_mode m = false →
  let rq := Request POST "checks/" (Some (create_body m tags)) in
  run rest repr m [] =
    (uuid ← ping_uuid (json (rest rq));
     (if bool_decide (status_code (rest rq) = 200%Z) then
        exit_json true
          (Some ("Existing check " +:+ uuid +:+ " found and updated"))
          (Some (json (rest rq)))
      else if bool_decide (status_code (rest rq) = 201%Z) then
        exit_json true (Some ("New check " +:+ uuid +:+ " created"))
          (Some (json (rest rq)))
      else
        fail_json false
          ("Failed to create or update delete check [HTTP "
             +:+ pretty (status_code (rest rq)) +:+ "]"));;
     exit_json true None (Some (json (rest rq)))) [rq].
Proof.
  intros [Hst [tok Htok] Hu Ht] Hcm rq.
  rewrite (run_dispatch _ _ _ _ _ _ Hst Htok). simpl.
  unfold Checks.create, mbind, M_bind, dict_del, dict_get_or. simpl.
  rewrite Hcm. simpl.
  rewrite !popped_lookup by done. rewrite Hu, Ht. simpl.
  reflexivity.
Qed.

Lemma run_absent rest repr m uuid tags :
  ready m "absent" uuid tags → check_mode m = false →
  let rq := Request DELETE ("checks/" +:+ uuid) None in
  run rest repr m [] =
    (if bool_decide (status_code (rest rq) = 200%Z) then
       exit_json true (Some ("Check " +:+ uuid +:+ " successfully deleted"))
         None
     else if bool_decide (status_code (rest rq) = 404%Z) then
       exit_json false (Some ("Check " +:+ uuid +:+ " not found")) None
     else
       fail_json false
         ("Failed delete check " +:+ uuid
            +:+ " [HTTP " +:+ pretty (status_code (rest rq)) +:+ "]")) [rq].
Proof.
  intros [Hst [tok Htok] Hu Ht] Hcm rq.
  rewrite (run_dispatch _ _ _ _ _ _ Hst Htok). simpl.
  unfold Checks.delete, mbind, M_bind, dict_get. simpl.
  rewrite Hcm. simpl.
  rewrite !popped_lookup by done. rewrite Hu. simpl.
  reflexivity.
Qed.

Lemma run_pause rest repr m uuid tags :
  ready m "pause" uuid tags → check_mode m = false →
  let rq := Request POST ("checks/" +:+ uuid +:+ "/pause") None in
  run rest repr m [] =
    (if bool_decide (status_code (rest rq) = 200%Z) then
       exit_json true (Some ("Check " +:+ uuid +:+ " successfully paused"))
         None
     else if bool_decide (status_code (rest rq) = 404%Z) then
       exit_json false (Some ("Check " +:+ uuid +:+ " not found")) None
     else
       fail_json false
         ("Failed delete check " +:+ uuid
            +:+ " [HTTP " +:+ pretty (status_code (rest rq)) +:+ "]")) [rq].
Proof.
  intros [Hst [tok Htok] Hu Ht] Hcm rq.
  rewrite (run_dispatch _ _ _ _ _ _ Hst Htok). simpl.
  unfold Checks.pause, mbind, M_bind, dict_get. simpl.
  rewrite Hcm. simpl.
  rewrite !popped_lookup by done. rewrite Hu. simpl.
  reflexivity.
Qed.

(** Rewrites a run of [run] on a ready module into the status-code
    dispatch of the operation it selects. *)
Ltac enter_run H Hcm :=
  unfold exec;
  first [ rewrite (run_present _ _ _ _ _ H Hcm)
        | rewrite (run_absent _ _ _ _ _ H Hcm)
        | rewrite (run_pause _ _ _ _ _ H Hcm) ].

Lemma append_assoc (a b c : string) : (a +:+ b) +:+ c = a +:+ b +:+ c.
Proof.
  induction a as [|x a IH]; [reflexivity |].
  change (String x ((a +:+ b) +:+ c) = String x (a +:+ b +:+ c)).
  by rewrite IH.
Qed.

Lemma ready_module_ready state uuid :
  ready (ready_module state uuid) state uuid ["db"; "nightly"].
Proof. split; [done | by eexists | done | done]. Qed.

(** ** Simulate-only mode *)

Lemma run_check_mode_log rest repr (m : AnsibleModule) :
  check_mode m = true → (exec (run rest repr m)).2 = [].
Proof.
  intros Hcm. unfold exec, run, Checks.__init__, dict_pop, mbind, M_bind.
  destruct (params m !! "state") as [st|]; [| reflexivity]. simpl.
  destruct (delete "state" (params m) !! "api_token") as [tok|];
    [| reflexivity]. simpl.
  unfold Checks.create, Checks.delete, Checks.pause, mbind, M_bind. simpl.
  rewrite Hcm.
  destruct (eq_str st "present"); [reflexivity |].
  destruct (eq_str st "absent"); [reflexivity |].
  destruct (eq_str st "pause"); reflexivity.
Qed.

Lemma main_check_mode_log helper rest repr (args : gmap string pyval) :
  (exec (main helper rest repr args true)).2 = [].
Proof.
  unfold exec, main, mbind, M_bind.
  destruct (new_module _ _ _ _ _) as [[m|o] log] eqn:Hnew.
  - assert (check_mode m = true ∧ log = []) as [Hcm ->].
    { unfold new_module, halt, mret, M_ret in Hnew.
      repeat case_match; simplify_eq; done. }
    apply (run_check_mode_log rest repr m Hcm).
  - unfold new_module, halt, mret, M_ret in Hnew.
    repeat case_match; by simplify_eq.
Qed.

(** C5: in check mode each of the three states ends with [changed=false]
    and the request log is empty. *)
Theorem check_mode_no_call rest repr (m : AnsibleModule) (st : string) :
  check_mode m = true →
  st ∈ ["present"; "absent"; "pause"] →
  params m !! "state" = Some (PStr st) →
  is_Some (params m !! "api_token") →
  exec (run rest repr m)
  = (ExitJson (Result false None (Some (JDict ∅))), []).
Proof.
  intros Hcm Hin Hst [tok Htok]. unfold exec.
  rewrite (run_dispatch _ _ _ _ _ _ Hst Htok).
  unfold Checks.create, Checks.delete, Checks.pause, mbind, M_bind.
  simpl. rewrite Hcm.
  repeat (apply elem_of_cons in Hin as [-> | Hin]; [reflexivity |]).
  by apply elem_of_nil in Hin.
Qed.

Lemma check_mode_no_call_witness :
  exec (run (always {| status_code := 200; json := JNull |}) no_repr
          {| params := params (ready_module "pause" "abc-123");
             check_mode := true |})
  = (ExitJson (Result false None (Some (JDict ∅))), []).
Proof.
  apply (check_mode_no_call _ _ _ "pause");
    [reflexivity | set_solver | reflexivity | by eexists].
Defined.

(** ** Delete and pause *)

(** C7: on the delete path and on the pause path a 200 answer ends the run
    with [exit_json] and [changed=true], after the one request. *)
Theorem delete_pause_200 rest repr (m : AnsibleModule) (uuid : string)
    (tags : list string) :
  check_mode m = false →
  (ready m "absent" uuid tags →
   status_code (rest (Request DELETE ("checks/" +:+ uuid) None)) = 200%Z →
   exec (run rest repr m)
   = (ExitJson (Result true
        (Some ("Check " +:+ uuid +:+ " successfully deleted")) None),
      [Request DELETE ("checks/" +:+ uuid) None]))
  ∧
  (ready m "pause" uuid tags →
   status_code (rest (Request POST ("checks/" +:+ uuid +:+ "/pause") None))
     = 200%Z →
   exec (run rest repr m)
   = (ExitJson (Result true
        (Some ("Check " +:+ uuid +:+ " successfully paused")) None),
      [Request POST ("checks/" +:+ uuid +:+ "/pause") None])).
Proof.
  intros Hcm. split; intros Hr Hsc; enter_run Hr Hcm; rewrite Hsc; reflexivity.
Qed.

Lemma delete_pause_200_witness :
  exec (run (always {| status_code := 200; json := JNull |}) no_repr
          (ready_module "absent" "abc-123"))
  = (ExitJson (Result true (Some "Check abc-123 successfully deleted") None),
     [Request DELETE "checks/abc-123" None])
  ∧
  exec (run (always {| status_code := 200; json := JNull |}) no_repr
          (ready_module "pause" "abc-123"))
  = (ExitJson (Result true (Some "Check abc-123 successfully paused") None),
     [Request POST "checks/abc-123/pause" None]).
Proof.
  split.
  - apply (proj1 (delete_pause_200 _ no_repr (ready_module "absent" "abc-123")
                    "abc-123" ["db"; "nightly"] eq_refl));
      [apply ready_module_ready | reflexivity].
  - apply (proj2 (delete_pause_200 _ no_repr (ready_module "pause" "abc-123")
                    "abc-123" ["db"; "nightly"] eq_refl));
      [apply ready_module_ready | reflexivity].
Defined.

(** C6: on both paths a 404 answer ends the run with [exit_json] (not
    [fail_json]) and [changed=false]; the specification's example, run
    through [main], gives "Check abc-123 not found". *)
Theorem delete_pause_404 :
  (∀ rest repr (m : AnsibleModule) (uuid : string) (tags : list string),
     check_mode m = false →
     (ready m "absent" uuid tags →
      status_code (rest (Request DELETE ("checks/" +:+ uuid) None)) = 404%Z →
      exec (run rest repr m)
      = (ExitJson (Result false
           (Some ("Check " +:+ uuid +:+ " not found")) None),
         [Request DELETE ("checks/" +:+ uuid) None]))
     ∧
     (ready m "pause" uuid tags →
      status_code (rest (Request POST ("checks/" +:+ uuid +:+ "/pause") None))
        = 404%Z →
      exec (run rest repr m)
      = (ExitJson (Result false
           (Some ("Check " +:+ uuid +:+ " not found")) None),
         [Request POST ("checks/" +:+ uuid +:+ "/pause") None])))
  ∧
  exec (main healthchecksio_argument_spec
          (always {| status_code := 404; json := JNull |}) no_repr
          {[ "state" := PStr "absent"; "uuid" := PStr "abc-123" ]} false)
  = (ExitJson (Result false (Some "Check abc-123 not found") None),
     [Request DELETE "checks/abc-123" None]).
Proof.
  split; [| vm_compute; reflexivity].
  intros rest repr m uuid tags Hcm.
  split; intros Hr Hsc; enter_run Hr Hcm; rewrite Hsc; reflexivity.
Qed.

Lemma delete_pause_404_witness :
  exec (run (always {| status_code := 404; json := JNull |}) no_repr
          (ready_module "pause" "abc-123"))
  = (ExitJson (Result false (Some "Check abc-123 not found") None),
     [Request POST "checks/abc-123/pause" None]).
Proof.
  apply (proj2 (proj1 delete_pause_404 _ no_repr
                  (ready_module "pause" "abc-123") "abc-123"
                  ["db"; "nightly"] eq_refl));
    [apply ready_module_ready | reflexivity].
Defined.

(** C4: on both paths an answer whose status is neither 200 nor 404 ends
    the run with [fail_json]; the message is
    "Failed delete check <uuid> [HTTP <status>]" on the delete path and on
    the pause path alike, so it holds the status code and the word
    "delete". *)
Theorem delete_pause_other_status rest repr (m : AnsibleModule)
    (uuid : string) (tags : list string) (st : string) (rq : request) :
  check_mode m = false →
  ready m st uuid tags →
  (st = "absent" ∧ rq = Request DELETE ("checks/" +:+ uuid) None
   ∨ st = "pause" ∧ rq = Request POST ("checks/" +:+ uuid +:+ "/pause") None) →
  status_code (rest rq) ≠ 200%Z →
  status_code (rest rq) ≠ 404%Z →
  ∃ message,
    exec (run rest repr m)
    = (FailJson (Result false (Some message) None), [rq])
    ∧ message = "Failed delete check " +:+ uuid +:+ " [HTTP "
                  +:+ pretty (status_code (rest rq)) +:+ "]"
    ∧ contains (pretty (status_code (rest rq))) message
    ∧ contains "delete" message.
Proof.
  intros Hcm Hr Hst H200 H404. eexists. split; [| split; [reflexivity |]].
  - destruct Hst as [[-> ->] | [-> ->]]; enter_run Hr Hcm;
      rewrite !bool_decide_eq_false_2 by done; reflexivity.
  - split.
    + exists ("Failed delete check " +:+ uuid +:+ " [HTTP "), "]".
      by rewrite !append_assoc.
    + exists "Failed ", (" check " +:+ uuid +:+ " [HTTP "
        +:+ pretty (status_code (rest rq)) +:+ "]").
      reflexivity.
Qed.

Lemma delete_pause_other_status_witness :
  ∃ message,
    exec (run (always {| status_code := 500; json := JNull |}) no_repr
            (ready_module "pause" "abc-123"))
    = (FailJson (Result false (Some message) None),
       [Request POST "checks/abc-123/pause" None])
    ∧ message = "Failed delete check abc-123 [HTTP 500]"
    ∧ contains "500" message
    ∧ contains "delete" message.
Proof.
  apply (delete_pause_other_status
           (always {| status_code := 500; json := JNull |}) no_repr
           (ready_module "pause" "abc-123") "abc-123" ["db"; "nightly"]
           "pause" (Request POST "checks/abc-123/pause" None));
    [reflexivity | apply ready_module_ready | by right | done | done].
Defined.

(** ** Create or update *)

(** C1, the example as the specification has it: for the ping URL
    "https://x/ping/UUID-1/" the run does not end with the message
    "New check UUID-1 created". *)
Lemma create_example_is_not_UUID_1 :
  ¬ ∃ d,
      fst (exec (main healthchecksio_argument_spec (always example_created)
                   no_repr example_present_args false))
      = ExitJson (Result true (Some "New check UUID-1 created") d).
Proof. intros [d H]. vm_compute in H. discriminate H. Qed.

(** C1, amended: a 201 answer whose ping URL has a segment after its third
    ['/'] ends the run with [changed=true], the message
    "New check <segment> created" and the answer's body as data.  In the
    example that segment is "ping": the URL splits into "https:", an empty
    segment, "x", "ping", "UUID-1" and an empty segment.  The message there
    is "New check ping created". *)
Theorem create_201 :
  (∀ rest repr (m : AnsibleModule) (u : string) (tags : list string)
     (body : gmap string jvalue) (url uuid : string),
     check_mode m = false →
     ready m "present" u tags →
     rest (Request POST "checks/" (Some (create_body m tags)))
       = {| status_code := 201; json := JDict body |} →
     body !! "ping_url" = Some (JStr url) →
     segment_after_slash 3 url = Some uuid →
     exec (run rest repr m)
     = (ExitJson (Result true (Some ("New check " +:+ uuid +:+ " created"))
                    (Some (JDict body))),
        [Request POST "checks/" (Some (create_body m tags))]))
  ∧
  segment_after_slash 3 "https://x/ping/UUID-1/" = Some "ping"
  ∧
  fst (exec (main healthchecksio_argument_spec (always example_created)
               no_repr example_present_args false))
  = ExitJson (Result true (Some "New check ping created")
                (Some (json example_created))).
Proof.
  split; [| split; vm_compute; reflexivity].
  intros rest repr m u tags body url uuid Hcm Hr Hrest Hurl Hseg.
  enter_run Hr Hcm. rewrite Hrest.
  unfold mbind, M_bind. cbn [json status_code].
  rewrite (ping_uuid_segment _ _ _ _ Hurl Hseg). reflexivity.
Qed.

Lemma create_201_witness :
  exec (run (always {| status_code := 201;
                       json := JDict {[ "ping_url" :=
                                          JStr "https://hc-ping.com/UUID-1" ]} |})
          no_repr (ready_module "present" ""))
  = (ExitJson (Result true (Some "New check UUID-1 created")
       (Some (JDict {[ "ping_url" := JStr "https://hc-ping.com/UUID-1" ]}))),
     [Request POST "checks/"
        (Some (create_body (ready_module "present" "") ["db"; "nightly"]))]).
Proof.
  apply (proj1 create_201 _ no_repr (ready_module "present" "") ""
           ["db"; "nightly"] _ "https://hc-ping.com/UUID-1" "UUID-1");
    [reflexivity | apply ready_module_ready | reflexivity | reflexivity
    | reflexivity].
Defined.

(** C8: a 200 answer whose ping URL has a segment after its third ['/']
    ends the run with [changed=true], the message
    "Existing check <segment> found and updated" and the whole body of the
    answer as data. *)
Theorem create_200 rest repr (m : AnsibleModule) (u : string)
    (tags : list string) (body : gmap string jvalue) (url uuid : string) :
  check_mode m = false →
  ready m "present" u tags →
  rest (Request POST "checks/" (Some (create_body m tags)))
    = {| status_code := 200; json := JDict body |} →
  body !! "ping_url" = Some (JStr url) →
  segment_after_slash 3 url = Some uuid →
  exec (run rest repr m)
  = (ExitJson (Result true
       (Some ("Existing check " +:+ uuid +:+ " found and updated"))
       (Some (JDict body))),
     [Request POST "checks/" (Some (create_body m tags))]).
Proof.
  intros Hcm Hr Hrest Hurl Hseg.
  enter_run Hr Hcm. rewrite Hrest.
  unfold mbind, M_bind. cbn [json status_code].
  rewrite (ping_uuid_segment _ _ _ _ Hurl Hseg). reflexivity.
Qed.

Lemma create_200_witness :
  exec (run (always {| status_code := 200;
                       json := JDict {[ "ping_url" :=
                                          JStr "https://hc-ping.com/UUID-1";
                                        "name" := JStr "nightly-backup" ]} |})
          no_repr (ready_module "present" ""))
  = (ExitJson (Result true (Some "Existing check UUID-1 found and updated")
       (Some (JDict {[ "ping_url" := JStr "https://hc-ping.com/UUID-1";
                       "name" := JStr "nightly-backup" ]}))),
     [Request POST "checks/"
        (Some (create_body (ready_module "present" "") ["db"; "nightly"]))]).
Proof.
  apply (create_200 _ no_repr (ready_module "present" "") ""
           ["db"; "nightly"] _ "https://hc-ping.com/UUID-1" "UUID-1");
    [reflexivity | apply ready_module_ready | reflexivity | reflexivity
    | reflexivity].
Defined.

(** C10: the identifier is taken from the body before the status code is
    looked at, so an answer without [ping_url] ends the run with an
    exception whatever its status code: neither [exit_json] nor
    [fail_json] is reached. *)
Theorem create_without_ping_url_raises rest repr (m : AnsibleModule)
    (u : string) (tags : list string) :
  check_mode m = false →
  ready m "present" u tags →
  lacks_ping_url
    (json (rest (Request POST "checks/" (Some (create_body m tags))))) →
  exec (run rest repr m)
  = (Raised AttributeError,
     [Request POST "checks/" (Some (create_body m tags))]).
Proof.
  intros Hcm Hr Hlack. enter_run Hr Hcm.
  unfold mbind, M_bind, ping_uuid.
  destruct (json _) as [| | | | |d]; try reflexivity.
  simpl in Hlack. rewrite Hlack. reflexivity.
Qed.

Lemma create_without_ping_url_raises_witness :
  exec (run (always {| status_code := 201;
                       json := JDict {[ "name" := JStr "nightly-backup" ]} |})
          no_repr (ready_module "present" ""))
  = (Raised AttributeError,
     [Request POST "checks/"
        (Some (create_body (ready_module "present" "") ["db"; "nightly"]))]).
Proof.
  apply (create_without_ping_url_raises _ no_repr
           (ready_module "present" "") "" ["db"; "nightly"]);
    [reflexivity | apply ready_module_ready | reflexivity].
Defined.

(** The failure branch of [create] is reached when the answer does carry a
    ping URL with a segment after its third ['/']. *)
Lemma create_other_status_with_ping_url rest repr (m : AnsibleModule)
    (u : string) (tags : list string) (rsp : Response)
    (body : gmap string jvalue) (url uuid : string) :
  check_mode m = false →
  ready m "present" u tags →
  rest (Request POST "checks/" (Some (create_body m tags))) = rsp →
  json rsp = JDict body →
  body !! "ping_url" = Some (JStr url) →
  segment_after_slash 3 url = Some uuid →
  status_code rsp ≠ 200%Z → status_code rsp ≠ 201%Z →
  exec (run rest repr m)
  = (FailJson (Result false
       (Some ("Failed to create or update delete check [HTTP "
                +:+ pretty (status_code rsp) +:+ "]")) None),
     [Request POST "checks/" (Some (create_body m tags))]).
Proof.
  intros Hcm Hr Hrest Hjson Hurl Hseg H200 H201.
  enter_run Hr Hcm. rewrite Hrest, Hjson.
  unfold mbind, M_bind.
  rewrite (ping_uuid_segment _ _ _ _ Hurl Hseg).
  rewrite !bool_decide_eq_false_2 by done. reflexivity.
Qed.

(** Whatever the body, an answer with a status other than 200 and 201
    never ends the run with [exit_json], and never with [changed=true]. *)
Lemma create_other_status_not_changed rest repr (m : AnsibleModule)
    (u : string) (tags : list string) :
  check_mode m = false →
  ready m "present" u tags →
  status_code (rest (Request POST "checks/" (Some (create_body m tags))))
    ≠ 200%Z →
  status_code (rest (Request POST "checks/" (Some (create_body m tags))))
    ≠ 201%Z →
  (∃ e, (exec (run rest repr m)).1 = Raised e)
  ∨ (∃ message,
       (exec (run rest repr m)).1
       = FailJson (Result false (Some message) None)).
Proof.
  intros Hcm Hr H200 H201. enter_run Hr Hcm.
  rewrite !bool_decide_eq_false_2 by done.
  unfold mbind, M_bind, ping_uuid, mret, M_ret, raise, fail_json, halt.
  repeat case_match; simplify_eq; simpl; eauto.
Qed.

(** C3, at an error answer as the service sends them: status 400 with an
    [error] field and no [ping_url].  The run ends with an exception after
    the request; [fail_json] and its "[HTTP 400]" message are not
    reached. *)
Theorem create_error_answer_raises :
  exec (main healthchecksio_argument_spec
          (always {| status_code := 400;
                     json := JDict {[ "error" :=
                                        JStr "could not parse request body" ]} |})
          no_repr {[ "state" := PStr "present" ]} false)
  = (Raised AttributeError,
     [Request POST "checks/"
        (Some {[ "name" := PStr ""; "tags" := PStr ""; "desc" := PStr "";
                 "timeout" := PInt 86400; "grace" := PInt 3600;
                 "schedule" := PStr "* * * * *"; "tz" := PStr "UTC";
                 "manual_resume" := PBool false; "methods" := PStr "";
                 "channels" := PStr ""; "unique" := PList [] ]})]).
Proof. vm_compute. reflexivity. Qed.

(** ** The body of the create request *)

Lemma ping_uuid_log (j : jvalue) (log : list request) :
  (ping_uuid j log).2 = log.
Proof. unfold ping_uuid. repeat case_match; reflexivity. Qed.

(** C9, as the specification has it: [state] and [api_token] are
    parameters of the invocation other than [uuid], and the body that is
    posted holds neither. *)
Lemma create_body_leaves_out_state_and_token :
  ∃ d,
    snd (exec (main healthchecksio_argument_spec (always example_created)
                 no_repr example_upsert_args false))
    = [Request POST "checks/" (Some d)]
    ∧ example_upsert_args !! "state" = Some (PStr "present")
    ∧ d !! "state" = None
    ∧ example_upsert_args !! "api_token" = Some (PStr "secret")
    ∧ d !! "api_token" = None.
Proof. eexists. vm_compute. by repeat split. Qed.

(** C9, amended: the body of the one request on the create path holds
    every parameter except [state], [api_token] and [uuid], each with the
    value it had, and [tags] as the tags joined by single spaces. *)
Theorem create_request_body rest repr (m : AnsibleModule) (u : string)
    (tags : list string) :
  check_mode m = false →
  ready m "present" u tags →
  ∃ d,
    snd (exec (run rest repr m)) = [Request POST "checks/" (Some d)]
    ∧ d !! "uuid" = None
    ∧ d !! "state" = None
    ∧ d !! "api_token" = None
    ∧ d !! "tags" = Some (PStr (Py.join " " tags))
    ∧ ∀ k, k ∉ ["uuid"; "state"; "api_token"; "tags"] →
           d !! k = params m !! k.
Proof.
  intros Hcm Hr. exists (create_body m tags). split.
  - enter_run Hr Hcm. unfold mbind, M_bind.
    match goal with
    | |- context [ping_uuid ?j ?log] =>
        pose proof (ping_uuid_log j log) as Hlog;
        destruct (ping_uuid j log) as [[a|o] l]; simpl in Hlog; subst l
    end; [repeat case_bool_decide |]; reflexivity.
  - unfold create_body. repeat split.
    + rewrite lookup_insert_ne by done. apply lookup_delete_eq.
    + rewrite lookup_insert_ne by done.
      rewrite 2!lookup_delete_ne by done. apply lookup_delete_eq.
    + rewrite lookup_insert_ne by done.
      rewrite lookup_delete_ne by done. apply lookup_delete_eq.
    + apply lookup_insert_eq.
    + intros k Hk.
      rewrite lookup_insert_ne by set_solver.
      rewrite !lookup_delete_ne by set_solver. reflexivity.
Qed.

Lemma create_request_body_witness :
  ∃ d,
    snd (exec (run (always example_created) no_repr
                 (ready_module "present" "abc-123")))
    = [Request POST "checks/" (Some d)]
    ∧ d !! "uuid" = None
    ∧ d !! "state" = None
    ∧ d !! "api_token" = None
    ∧ d !! "tags" = Some (PStr "db nightly")
    ∧ ∀ k, k ∉ ["uuid"; "state"; "api_token"; "tags"] →
           d !! k = params (ready_module "present" "abc-123") !! k.
Proof.
  apply (create_request_body (always example_created) no_repr
           (ready_module "present" "abc-123") "abc-123" ["db"; "nightly"]);
    [reflexivity | apply ready_module_ready].
Defined.

(** ** The uuid required for delete and pause *)

Lemma uuid_defaulted (helper : gmap string arg) (args : gmap string pyval) :
  is_Some (set_defaults true (argument_spec helper) args !! "uuid").
Proof.
  unfold set_defaults, argument_spec.
  destruct (args !! "uuid") as [v|] eqn:Hargs.
  - exists v. by apply lookup_union_Some_l.
  - exists (PStr ""). rewrite lookup_union_r by done.
    rewrite lookup_omap.
    by rewrite (lookup_union_Some_l _ _ _ (Arg (PStr "") false None)).
Qed.

(** Validation lets an invocation that names only its state through, with
    every default filled in and the uuid empty. *)
Lemma main_without_uuid rest repr (st : string) :
  st ∈ ["absent"; "pause"] →
  ∃ m, exec (main healthchecksio_argument_spec rest repr
               {[ "state" := PStr st ]} false)
       = exec (run rest repr m)
       ∧ ready m st "" [] ∧ check_mode m = false.
Proof.
  intros Hst.
  assert (∃ m, new_module (argument_spec healthchecksio_argument_spec)
                 required_if {[ "state" := PStr st ]} false []
               = (Next m, [])
               ∧ ready m st "" [] ∧ check_mode m = false) as (m & Hm & Hr).
  { repeat (apply elem_of_cons in Hst as [-> | Hst]);
      [| | by apply elem_of_nil in Hst];
      (eexists; split; [vm_compute; reflexivity |]);
      (split; [split; [| eexists | |]; vm_compute; reflexivity
              | reflexivity]). }
  exists m. split; [| exact Hr].
  unfold exec, main, mbind, M_bind. rewrite Hm. reflexivity.
Qed.

(** C2: [uuid] has the default [""], which is filled in before the
    [required_if] rules are checked; the rules therefore never refuse an
    invocation, and one with [state=absent] or [state=pause] and no uuid
    goes on to send its request with an empty identifier. *)
Theorem missing_uuid_is_not_refused :
  (∀ (helper : gmap string arg) (args : gmap string pyval),
     check_required_if required_if
       (set_defaults true (argument_spec helper) args) = None)
  ∧
  (∀ rest repr,
     snd (exec (main healthchecksio_argument_spec rest repr
                  {[ "state" := PStr "absent" ]} false))
     = [Request DELETE "checks/" None])
  ∧
  (∀ rest repr,
     snd (exec (main healthchecksio_argument_spec rest repr
                  {[ "state" := PStr "pause" ]} false))
     = [Request POST "checks//pause" None]).
Proof.
  split; [| split].
  - intros helper args.
    destruct (uuid_defaulted helper args) as [v Hv].
    set (p := set_defaults true (argument_spec helper) args) in *.
    assert (Hf : filter (λ r, p !! r = None) ["uuid"] = []).
    { rewrite filter_cons_False by (rewrite Hv; done). apply filter_nil. }
    unfold check_required_if, required_if. rewrite Hf.
    by repeat case_bool_decide.
  - intros rest repr.
    destruct (main_without_uuid rest repr "absent") as (m & -> & Hr & Hcm);
      [set_solver |].
    enter_run Hr Hcm. by repeat case_bool_decide.
  - intros rest repr.
    destruct (main_without_uuid rest repr "pause") as (m & -> & Hr & Hcm);
      [set_solver |].
    enter_run Hr Hcm. by repeat case_bool_decide.
Qed.

(** * Further properties of the module *)

Lemma new_module_log spec rules (args : gmap string pyval) (check : bool)
    (s : step AnsibleModule) (log : list request) :
  new_module spec rules args check [] = (s, log) → log = [].
Proof.
  unfold new_module, halt, mret, M_ret.
  repeat case_match; by intros [= _ <-].
Qed.

Lemma main_unfold helper repr (args : gmap string pyval) (check : bool) :
  (∃ e, ∀ rest, exec (main helper rest repr args check) = (Rejected e, []))
  ∨ (∃ m, new_module (argument_spec helper) required_if args check []
          = (Next m, [])
          ∧ ∀ rest, exec (main helper rest repr args check)
                    = exec (run rest repr m)).
Proof.
  destruct (new_module (argument_spec helper) required_if args check [])
    as [[m|o] log] eqn:Hnew;
    apply new_module_log in Hnew as ?; subst log.
  - right. exists m. split; [reflexivity |]. intros rest.
    unfold exec, main, mbind, M_bind. rewrite Hnew. reflexivity.
  - left. assert (∃ e, o = Rejected e) as [e ->].
    { unfold new_module, halt, mret, M_ret in Hnew.
      repeat case_match; simplify_eq; eauto. }
    exists e. intros rest.
    unfold exec, main, mbind, M_bind. rewrite Hnew. reflexivity.
Qed.

Lemma ping_uuid_cases (j : jvalue) (log : list request) :
  (∃ u, ping_uuid j log = (Next u, log))
  ∨ (∃ e, ping_uuid j log = (Halt (Raised e), log)
          ∧ (e = AttributeError ∨ e = IndexError)).
Proof.
  unfold ping_uuid. repeat case_match; eauto.
Qed.

Lemma create_after_answered (rsp : Response) (log : list request) :
  ∃ o, create_after rsp log = (Halt o, log) ∧ answered rsp o.
Proof.
  unfold create_after, mbind, M_bind.
  destruct (ping_uuid_cases (json rsp) log) as [[u ->] | (e & -> & He)].
  - repeat case_bool_decide; eexists; (split; [reflexivity |]).
    + right; left. eauto.
    + right; left. eauto.
    + do 3 right.
      exists "Failed to create or update delete check ". split; done.
  - eexists. split; [reflexivity |]. left. eauto.
Qed.

Lemma status_after_answered (done uuid : string) (rsp : Response)
    (log : list request) :
  ∃ o, status_after done uuid rsp log = (Halt o, log) ∧ answered rsp o.
Proof.
  unfold status_after.
  repeat case_bool_decide; eexists; (split; [reflexivity |]).
  - right; left. eauto.
  - right; right; left. eauto.
  - do 3 right. exists ("Failed delete check " +:+ uuid +:+ " ").
    split; [| done]. by rewrite !append_assoc.
Qed.

Lemma join_tags_cases (v : pyval) :
  (∃ j, ∀ log, join_tags v log = (Next j, log))
  ∨ (∀ log, join_tags v log = (Halt (Raised TypeError), log)).
Proof. destruct v; simpl; eauto. Qed.

Lemma run_steps rest repr (m : AnsibleModule) (log : list request) :
  run rest repr m log =
    match params m !! "state" with
    | None => (Halt (Raised KeyError), log)
    | Some v =>
        match params m !! "api_token" with
        | None => (Halt (Raised KeyError), log)
        | Some token =>
            (if eq_str v "present"
             then Checks.create rest (checks_of m token)
             else if eq_str v "absent"
                  then Checks.delete rest repr (checks_of m token)
             else if eq_str v "pause"
                  then Checks.pause rest repr (checks_of m token)
             else mret ()) log
        end
    end.
Proof.
  unfold run, Checks.__init__, dict_pop, mbind, M_bind.
  destruct (params m !! "state") as [v|]; [| reflexivity]. simpl.
  rewrite lookup_delete_ne by done.
  destruct (params m !! "api_token") as [token|]; reflexivity.
Qed.

Lemma create_endings (self : Checks.t) :
  (∃ o, early o
        ∧ (o = Raised KeyError → params (Checks.module self) !! "uuid" = None)
        ∧ ∀ rest, Checks.create rest self [] = (Halt o, []))
  ∨ (∃ rq, well_formed_request (params (Checks.module self)) rq
           ∧ ∀ rest, ∃ o, Checks.create rest self [] = (Halt o, [rq])
                          ∧ answered (rest rq) o).
Proof.
  destruct (check_mode (Checks.module self)) eqn:Hcm.
  { left. eexists. split; [by right; right |]. split; [done |]. intros rest.
    unfold Checks.create, mbind, M_bind. rewrite Hcm. reflexivity. }
  destruct (params (Checks.module self) !! "uuid") as [u|] eqn:Hu; cycle 1.
  { left. eexists. split; [by left |]. split; [done |]. intros rest.
    unfold Checks.create, mbind, M_bind, dict_del. rewrite Hcm, Hu.
    reflexivity. }
  destruct (join_tags_cases
              (dict_get_or "tags" (PList []) (params (Checks.module self))))
    as [[j Hj] | Hj].
  - right.
    exists (Request POST "checks/"
              (Some (<["tags" := PStr j]>
                       (delete "uuid" (params (Checks.module self)))))).
    split.
    + split; [by exists "" |]. simpl. repeat split.
      * rewrite lookup_insert_ne by done. apply lookup_delete_eq.
      * intros k Hk Hnone. rewrite lookup_insert_ne by done.
        destruct (decide (k = "uuid")) as [-> |];
          [apply lookup_delete_eq | by rewrite lookup_delete_ne].
    + intros rest.
      unfold Checks.create, mbind, M_bind, dict_del. rewrite Hcm, Hu. simpl.
      rewrite Hj. simpl. apply create_after_answered.
  - left. eexists. split; [by right; left |]. split; [done |]. intros rest.
    unfold Checks.create, mbind, M_bind, dict_del. rewrite Hcm, Hu. simpl.
    rewrite Hj. reflexivity.
Qed.

Lemma delete_endings repr (self : Checks.t) :
  (∃ o, early o
        ∧ (o = Raised KeyError → params (Checks.module self) !! "uuid" = None)
        ∧ ∀ rest, Checks.delete rest repr self [] = (Halt o, []))
  ∨ (∃ rq, well_formed_request (params (Checks.module self)) rq
           ∧ ∀ rest, ∃ o, Checks.delete rest repr self [] = (Halt o, [rq])
                          ∧ answered (rest rq) o).
Proof.
  destruct (check_mode (Checks.module self)) eqn:Hcm.
  { left. eexists. split; [by right; right |]. split; [done |]. intros rest.
    unfold Checks.delete, mbind, M_bind. rewrite Hcm. reflexivity. }
  right. eexists (Request DELETE _ None). split.
  - split; [by eexists | done].
  - intros rest.
    unfold Checks.delete, mbind, M_bind. rewrite Hcm. simpl.
    apply (status_after_answered "deleted").
Qed.

Lemma pause_endings repr (self : Checks.t) :
  (∃ o, early o
        ∧ (o = Raised KeyError → params (Checks.module self) !! "uuid" = None)
        ∧ ∀ rest, Checks.pause rest repr self [] = (Halt o, []))
  ∨ (∃ rq, well_formed_request (params (Checks.module self)) rq
           ∧ ∀ rest, ∃ o, Checks.pause rest repr self [] = (Halt o, [rq])
                          ∧ answered (rest rq) o).
Proof.
  destruct (check_mode (Checks.module self)) eqn:Hcm.
  { left. eexists. split; [by right; right |]. split; [done |]. intros rest.
    unfold Checks.pause, mbind, M_bind. rewrite Hcm. reflexivity. }
  right. eexists (Request POST _ None). split.
  - split; [by eexists | done].
  - intros rest.
    unfold Checks.pause, mbind, M_bind. rewrite Hcm. simpl.
    apply (status_after_answered "paused").
Qed.

Lemma run_endings repr (m : AnsibleModule) :
  (∃ o, quiet o ∧ ∀ rest, exec (run rest repr m) = (o, []))
  ∨ (∃ rq, well_formed_request
             (delete "api_token" (delete "state" (params m))) rq
           ∧ ∀ rest, ∃ o, exec (run rest repr m) = (o, [rq])
                          ∧ answered (rest rq) o).
Proof.
  unfold exec. setoid_rewrite run_steps.
  destruct (params m !! "state") as [v|]; cycle 1.
  { left. exists (Raised KeyError). split; [by right; left | done]. }
  destruct (params m !! "api_token") as [token|]; cycle 1.
  { left. exists (Raised KeyError). split; [by right; left | done]. }
  assert (Hlift : ∀ op : (request → Response) → M unit,
    (∃ o, early o
          ∧ (o = Raised KeyError
             → params (Checks.module (checks_of m token)) !! "uuid" = None)
          ∧ ∀ rest, op rest [] = (Halt o, []))
    ∨ (∃ rq, well_formed_request
               (delete "api_token" (delete "state" (params m))) rq
             ∧ ∀ rest, ∃ o, op rest [] = (Halt o, [rq])
                            ∧ answered (rest rq) o) →
    (∃ o, quiet o ∧ ∀ rest,
        (let (s, log) := op rest [] in
         match s with Next _ => (Returned, log) | Halt o => (o, log) end)
        = (o, []))
    ∨ (∃ rq, well_formed_request
               (delete "api_token" (delete "state" (params m))) rq
             ∧ ∀ rest, ∃ o,
                 (let (s, log) := op rest [] in
                  match s with Next _ => (Returned, log) | Halt o => (o, log)
                  end) = (o, [rq])
                 ∧ answered (rest rq) o)).
  { intros op [(o & Hq & _ & Hop) | (rq & Hwf & Hop)].
    - left. exists o. split; [by right |]. intros rest. by rewrite Hop.
    - right. exists rq. split; [done |]. intros rest.
      destruct (Hop rest) as (o & -> & Ha). eauto. }
  destruct (eq_str v "present");
    [apply (Hlift (λ rest, Checks.create rest (checks_of m token))),
       create_endings |].
  destruct (eq_str v "absent");
    [apply (Hlift (λ rest, Checks.delete rest repr (checks_of m token))),
       delete_endings |].
  destruct (eq_str v "pause");
    [apply (Hlift (λ rest, Checks.pause rest repr (checks_of m token))),
       pause_endings |].
  left. exists Returned. split; [by left | done].
Qed.

(** ** One request at most, fixed before any answer is read *)

(** X1: a run sends at most one request, whatever the parameters and
    whatever the remote answers; so does a whole invocation of [main]. *)
Theorem at_most_one_request :
  (∀ rest repr (m : AnsibleModule),
     (List.length (exec (run rest repr m)).2 ≤ 1)%nat)
  ∧ (∀ helper rest repr (args : gmap string pyval) (check : bool),
       (List.length (exec (main helper rest repr args check)).2 ≤ 1)%nat).
Proof.
  assert (Hrun : ∀ rest repr (m : AnsibleModule),
            (List.length (exec (run rest repr m)).2 ≤ 1)%nat).
  { intros rest repr m.
    destruct (run_endings repr m) as [(o & _ & H) | (rq & _ & H)].
    - rewrite H. simpl. lia.
    - destruct (H rest) as (o & -> & _). simpl. lia. }
  split; [exact Hrun |].
  intros helper rest repr args check.
  destruct (main_unfold helper repr args check) as [[e H] | (m & _ & H)];
    rewrite H; [simpl; lia | apply Hrun].
Qed.

(** X2: which request is sent does not depend on the remote: two remotes
    see the same request log, for [run] and for [main]. *)
Theorem requests_independent_of_answers :
  (∀ rest1 rest2 repr (m : AnsibleModule),
     (exec (run rest1 repr m)).2 = (exec (run rest2 repr m)).2)
  ∧ (∀ helper rest1 rest2 repr (args : gmap string pyval) (check : bool),
       (exec (main helper rest1 repr args check)).2
       = (exec (main helper rest2 repr args check)).2).
Proof.
  assert (Hrun : ∀ rest1 rest2 repr (m : AnsibleModule),
            (exec (run rest1 repr m)).2 = (exec (run rest2 repr m)).2).
  { intros rest1 rest2 repr m.
    destruct (run_endings repr m) as [(o & _ & H) | (rq & _ & H)].
    - by rewrite !H.
    - destruct (H rest1) as (o1 & -> & _).
      destruct (H rest2) as (o2 & -> & _). reflexivity. }
  split; [exact Hrun |].
  intros helper rest1 rest2 repr args check.
  destruct (main_unfold helper repr args check) as [[e H] | (m & _ & H)];
    rewrite !H; [reflexivity | apply Hrun].
Qed.

(** X3: a result with [changed=true] is only ever reported after one
    request that the remote answered with 200 or 201, and it always
    carries a message (the closing [exit_json] of [create] is never
    reached). *)
Theorem changed_needs_200_or_201 rest repr (m : AnsibleModule) (r : result) :
  (exec (run rest repr m)).1 = ExitJson r
  ∨ (exec (run rest repr m)).1 = FailJson r →
  changed r = true →
  ∃ rq message,
    (exec (run rest repr m)).2 = [rq]
    ∧ (status_code (rest rq) = 200%Z ∨ status_code (rest rq) = 201%Z)
    ∧ msg r = Some message.
Proof.
  intros Hout Hch.
  destruct (run_endings repr m) as [(o & Hq & H) | (rq & _ & H)].
  - rewrite H in Hout. simpl in Hout.
    destruct Hq as [-> | [-> | [-> | ->]]];
      destruct Hout as [Ho | Ho]; simplify_eq; discriminate Hch.
  - destruct (H rest) as (o & Hrun & Ha). rewrite Hrun in *. simpl in Hout.
    destruct Ha as [(e & -> & _) | [(message & d & -> & Hsc)
                   | [(message & -> & _) | (pre & -> & _)]]];
      destruct Hout as [Ho | Ho]; simplify_eq; try discriminate Hch.
    exists rq, message. done.
Qed.

Lemma changed_needs_200_or_201_witness :
  ∃ rq message,
    (exec (run (always {| status_code := 200; json := JNull |}) no_repr
            (ready_module "pause" "abc-123"))).2 = [rq]
    ∧ (status_code (always {| status_code := 200; json := JNull |} rq)
         = 200%Z
       ∨ status_code (always {| status_code := 200; json := JNull |} rq)
         = 201%Z)
    ∧ msg (Result true (Some "Check abc-123 successfully paused") None)
      = Some message.
Proof.
  apply (changed_needs_200_or_201
           (always {| status_code := 200; json := JNull |}) no_repr
           (ready_module "pause" "abc-123")
           (Result true (Some "Check abc-123 successfully paused") None));
    [left; vm_compute; reflexivity | reflexivity].
Defined.

(** X4: every [fail_json] of the module reports [changed=false], has no
    data, and its message ends in "[HTTP <status>]" with the status of the
    answer to the one request that was sent; that status is never 200. *)
Theorem failure_reports_status rest repr (m : AnsibleModule) (r : result) :
  (exec (run rest repr m)).1 = FailJson r →
  changed r = false ∧ data r = None
  ∧ ∃ rq pre,
      (exec (run rest repr m)).2 = [rq]
      ∧ msg r = Some (pre +:+ "[HTTP "
                        +:+ pretty (status_code (rest rq)) +:+ "]")
      ∧ status_code (rest rq) ≠ 200%Z.
Proof.
  intros Hout.
  destruct (run_endings repr m) as [(o & Hq & H) | (rq & _ & H)].
  - rewrite H in Hout. simpl in Hout.
    destruct Hq as [-> | [-> | [-> | ->]]]; discriminate Hout.
  - destruct (H rest) as (o & Hrun & Ha). rewrite Hrun in *. simpl in Hout.
    destruct Ha as [(e & -> & _) | [(message & d & -> & Hsc)
                   | [(message & -> & _) | (pre & -> & Hsc)]]];
      simplify_eq.
    repeat split; eauto.
Qed.

Lemma failure_reports_status_witness :
  changed (Result false (Some "Failed delete check abc-123 [HTTP 500]") None)
  = false
  ∧ data (Result false (Some "Failed delete check abc-123 [HTTP 500]") None)
    = None
  ∧ ∃ rq pre,
      (exec (run (always {| status_code := 500; json := JNull |}) no_repr
              (ready_module "absent" "abc-123"))).2 = [rq]
      ∧ msg (Result false (Some "Failed delete check abc-123 [HTTP 500]")
               None)
        = Some (pre +:+ "[HTTP "
                  +:+ pretty (status_code
                                (always {| status_code := 500;
                                           json := JNull |} rq))
                  +:+ "]")
      ∧ status_code (always {| status_code := 500; json := JNull |} rq)
        ≠ 200%Z.
Proof.
  apply (failure_reports_status
           (always {| status_code := 500; json := JNull |}) no_repr
           (ready_module "absent" "abc-123")).
  vm_compute. reflexivity.
Defined.

(** X5: no request ever leaves the [checks/] endpoints; only the create
    request (POST [checks/]) has a body, and that body never holds
    [uuid], [api_token] or [state]. *)
Theorem requests_are_well_formed rest repr (m : AnsibleModule)
    (rq : request) :
  rq ∈ (exec (run rest repr m)).2 →
  (∃ path, req_endpoint rq = "checks/" +:+ path)
  ∧ ∀ d, req_data rq = Some d →
         req_method rq = POST ∧ req_endpoint rq = "checks/"
         ∧ d !! "uuid" = None ∧ d !! "api_token" = None
         ∧ d !! "state" = None.
Proof.
  intros Hin.
  destruct (run_endings repr m) as [(o & _ & H) | (rq' & Hwf & H)].
  - rewrite H in Hin. by apply elem_of_nil in Hin.
  - destruct (H rest) as (o & Hrun & _). rewrite Hrun in Hin. simpl in Hin.
    apply list_elem_of_singleton in Hin as ->.
    destruct Hwf as [Hpath Hdata]. split; [exact Hpath |].
    intros d Hd. rewrite Hd in Hdata.
    destruct Hdata as (Hm & He & Hu & Hrest). repeat split; try done.
    + apply Hrest; [done | apply lookup_delete_eq].
    + apply Hrest; [done |].
      rewrite lookup_delete_ne by done. apply lookup_delete_eq.
Qed.

Lemma requests_are_well_formed_witness :
  (∃ path, req_endpoint example_create_request = "checks/" +:+ path)
  ∧ ∀ d, req_data example_create_request = Some d →
         req_method example_create_request = POST
         ∧ req_endpoint example_create_request = "checks/"
         ∧ d !! "uuid" = None ∧ d !! "api_token" = None
         ∧ d !! "state" = None.
Proof.
  apply (requests_are_well_formed (always example_created) no_repr
           (ready_module "present" "abc-123") example_create_request).
  vm_compute. apply list_elem_of_singleton. reflexivity.
Defined.

(** ** Missing keys and unknown states *)

Lemma eq_str_false (v : pyval) (s : string) :
  v ≠ PStr s → eq_str v s = false.
Proof.
  intros Hne. destruct v; try reflexivity.
  simpl. apply bool_decide_eq_false_2. congruence.
Qed.

(** X6: [run] has no branch for a state other than the three: with such a
    state it returns without a request and without a result. *)
Theorem run_unknown_state_does_nothing rest repr (m : AnsibleModule)
    (v : pyval) :
  params m !! "state" = Some v →
  v ∉ [PStr "present"; PStr "absent"; PStr "pause"] →
  is_Some (params m !! "api_token") →
  exec (run rest repr m) = (Returned, []).
Proof.
  intros Hst Hv [token Htok]. unfold exec. rewrite run_steps, Hst, Htok.
  rewrite !eq_str_false by set_solver. reflexivity.
Qed.

Lemma run_unknown_state_does_nothing_witness :
  exec (run (always example_created) no_repr
          (ready_module "paused" "abc-123")) = (Returned, []).
Proof.
  apply (run_unknown_state_does_nothing _ _ _ (PStr "paused"));
    [reflexivity | | by eexists].
  intros Hin. repeat (apply elem_of_cons in Hin as [Heq | Hin];
                      [discriminate Heq |]).
  by apply elem_of_nil in Hin.
Defined.

(** X7: [run] pops [state] and [Checks.__init__] pops [api_token] without
    a default: when either key is missing the run ends with [KeyError]
    before any request, in check mode too. *)
Theorem run_missing_key rest repr (m : AnsibleModule) :
  params m !! "state" = None ∨ params m !! "api_token" = None →
  exec (run rest repr m) = (Raised KeyError, []).
Proof.
  intros Hmiss. unfold exec. rewrite run_steps.
  destruct (params m !! "state") as [v|]; [| reflexivity].
  destruct Hmiss as [? | ->]; [discriminate | reflexivity].
Qed.

Lemma run_missing_key_witness :
  exec (run (always example_created) no_repr
          {| params := {[ "state" := PStr "present"; "uuid" := PStr "" ]};
             check_mode := true |})
  = (Raised KeyError, []).
Proof. apply run_missing_key. right. reflexivity. Defined.

(** X8: [create] deletes [uuid] from its copy of the parameters with
    [del]: outside check mode a parameter dictionary without that key ends
    the run with [KeyError] before any request. *)
Theorem create_missing_uuid_key rest repr (m : AnsibleModule) :
  check_mode m = false →
  params m !! "state" = Some (PStr "present") →
  is_Some (params m !! "api_token") →
  params m !! "uuid" = None →
  exec (run rest repr m) = (Raised KeyError, []).
Proof.
  intros Hcm Hst [token Htok] Hu. unfold exec.
  rewrite run_steps, Hst, Htok. simpl.
  unfold Checks.create, mbind, M_bind, dict_del. simpl. rewrite Hcm. simpl.
  rewrite popped_lookup by done. rewrite Hu. reflexivity.
Qed.

Lemma create_missing_uuid_key_witness :
  exec (run (always example_created) no_repr
          {| params := {[ "state" := PStr "present";
                          "api_token" := PStr "token" ]};
             check_mode := false |})
  = (Raised KeyError, []).
Proof.
  apply create_missing_uuid_key; [reflexivity | reflexivity | by eexists
                                 | reflexivity].
Defined.

(** ** What validation guarantees to [run] *)

Lemma module_defaults_set :
  map_Forall (λ _ a, arg_default a ≠ PNone)
    (list_to_map module_arguments : gmap string arg).
Proof.
  apply map_Forall_to_list. vm_compute.
  repeat (constructor; [discriminate |]). constructor.
Qed.

Lemma module_argument_defaulted (helper : gmap string arg)
    (args : gmap string pyval) (k : string) (a : arg) :
  (list_to_map module_arguments : gmap string arg) !! k = Some a →
  is_Some (set_defaults true (argument_spec helper) args !! k).
Proof.
  intros Hk. unfold set_defaults, argument_spec.
  destruct (args !! k) as [v|] eqn:Hargs.
  - exists v. by apply lookup_union_Some_l.
  - exists (arg_default a). rewrite lookup_union_r by done.
    rewrite lookup_omap, (lookup_union_Some_l _ _ _ a) by done. simpl.
    pose proof (module_defaults_set k a Hk). simpl in *. by case_decide.
Qed.

Lemma defaults_cover_spec (spec : gmap string arg) (p : gmap string pyval)
    (k : string) :
  is_Some (spec !! k) → is_Some ((p ∪ (arg_default <$> spec)) !! k).
Proof.
  intros [a Ha]. destruct (p !! k) as [v|] eqn:Hp.
  - exists v. by apply lookup_union_Some_l.
  - exists (arg_default a). rewrite lookup_union_r by done.
    by rewrite lookup_fmap, Ha.
Qed.

Lemma validated_keys (helper : gmap string arg) (args : gmap string pyval)
    (check : bool) (m : AnsibleModule) (k : string) :
  new_module (argument_spec helper) required_if args check [] = (Next m, []) →
  is_Some (argument_spec helper !! k) →
  is_Some (params m !! k).
Proof.
  intros Hnew Hk. unfold new_module, halt, mret, M_ret in Hnew.
  repeat case_match; simplify_eq. cbn [params].
  by apply defaults_cover_spec.
Qed.

Lemma validated_check_mode (helper : gmap string arg)
    (args : gmap string pyval) (check : bool) (m : AnsibleModule) :
  new_module (argument_spec helper) required_if args check [] = (Next m, []) →
  check_mode m = check.
Proof.
  intros Hnew. unfold new_module, halt, mret, M_ret in Hnew.
  by repeat case_match; simplify_eq.
Qed.

Lemma validated_state (helper : gmap string arg) (args : gmap string pyval)
    (check : bool) (m : AnsibleModule) :
  new_module (argument_spec helper) required_if args check [] = (Next m, []) →
  ∃ v, params m !! "state" = Some v
       ∧ v ∈ [PStr "present"; PStr "absent"; PStr "pause"].
Proof.
  intros Hnew.
  destruct (choices_ok (argument_spec helper)
              (set_defaults true (argument_spec helper) args)) eqn:Hc;
    unfold new_module, halt, mret, M_ret in Hnew; rewrite Hc in Hnew;
    repeat case_match; simplify_eq.
  cbn [params].
  destruct (module_argument_defaulted helper args "state"
              (Arg (PStr "present") false
                 (Some [PStr "present"; PStr "absent"; PStr "pause"]))
              eq_refl) as [v Hv].
  exists v. split.
  - apply lookup_union_Some_l. exact Hv.
  - apply bool_decide_eq_true_1 in Hc.
    assert (Hspec : argument_spec helper !! "state"
                    = Some (Arg (PStr "present") false
                              (Some [PStr "present"; PStr "absent";
                                     PStr "pause"])))
      by (by apply lookup_union_Some_l).
    specialize (Hc "state" _ Hspec).
    unfold choice_ok in Hc. cbn [arg_choices] in Hc. by rewrite Hv in Hc.
Qed.

Lemma eq_str_true (v : pyval) (s : string) :
  eq_str v s = true → v = PStr s.
Proof.
  destruct v; try discriminate. simpl. intros H.
  by apply bool_decide_eq_true_1 in H as ->.
Qed.

Lemma early_not_returned (o : outcome) : early o → o ≠ Returned.
Proof. intros [-> | [-> | ->]]; discriminate. Qed.

Lemma answered_not_returned (rsp : Response) (o : outcome) :
  answered rsp o → o ≠ Returned.
Proof.
  intros [(e & -> & _) | [(message & d & -> & _)
         | [(message & -> & _) | (pre & -> & _)]]]; discriminate.
Qed.

Lemma answered_not_KeyError (rsp : Response) (o : outcome) :
  answered rsp o → o ≠ Raised KeyError.
Proof.
  intros [(e & -> & [-> | ->]) | [(message & d & -> & _)
         | [(message & -> & _) | (pre & -> & _)]]]; discriminate.
Qed.

(** The ending of the operation [run] selects, seen through [exec]. *)
Lemma exec_operation (op : M unit) (o : outcome) (log : list request) :
  op [] = (Halt o, log) →
  (let (s, log') := op [] in
   match s with Next _ => (Returned, log') | Halt o' => (o', log') end)
  = (o, log).
Proof. by intros ->. Qed.

Lemma run_operation_outcome rest repr (m : AnsibleModule) (v token : pyval) :
  params m !! "state" = Some v →
  params m !! "api_token" = Some token →
  v ∈ [PStr "present"; PStr "absent"; PStr "pause"] →
  ∃ o, (exec (run rest repr m)).1 = o
       ∧ o ≠ Returned
       ∧ (o = Raised KeyError → params m !! "uuid" = None).
Proof.
  intros Hst Htok Hv. unfold exec. rewrite run_steps, Hst, Htok.
  assert (Hop : ∀ op : M unit,
    ((∃ o, early o
           ∧ (o = Raised KeyError
              → params (Checks.module (checks_of m token)) !! "uuid" = None)
           ∧ op [] = (Halt o, []))
     ∨ (∃ rq o, op [] = (Halt o, [rq]) ∧ answered (rest rq) o)) →
    ∃ o, (let (s, log) := op [] in
          match s with Next _ => (Returned, log) | Halt o' => (o', log) end).1
         = o
         ∧ o ≠ Returned
         ∧ (o = Raised KeyError → params m !! "uuid" = None)).
  { intros op [(o & He & Hk & Hop) | (rq & o & Hop & Ha)];
      rewrite (exec_operation _ _ _ Hop); exists o;
      (split; [reflexivity |]); split.
    - by apply early_not_returned.
    - intros Ho. specialize (Hk Ho). simpl in Hk.
      by rewrite popped_lookup in Hk.
    - by eapply answered_not_returned.
    - intros Ho. by apply answered_not_KeyError in Ha. }
  repeat (apply elem_of_cons in Hv as [-> | Hv]); [| | | by apply elem_of_nil in Hv];
    simpl; apply Hop.
  - destruct (create_endings (checks_of m token))
      as [(o & He & Hk & H) | (rq & _ & H)]; [left; eauto 6 |].
    right. destruct (H rest) as (o & ? & ?). eauto.
  - destruct (delete_endings repr (checks_of m token))
      as [(o & He & Hk & H) | (rq & _ & H)]; [left; eauto 6 |].
    right. destruct (H rest) as (o & ? & ?). eauto.
  - destruct (pause_endings repr (checks_of m token))
      as [(o & He & Hk & H) | (rq & _ & H)]; [left; eauto 6 |].
    right. destruct (H rest) as (o & ? & ?). eauto.
Qed.

(** X9: through [main] the fall-through of [run] is unreachable: the
    [choices] of [state] leave only the three states, so an invocation
    always ends with [exit_json], [fail_json], a refused argument or an
    exception. *)
Theorem main_never_falls_through helper rest repr
    (args : gmap string pyval) (check : bool) :
  (exec (main helper rest repr args check)).1 ≠ Returned.
Proof.
  destruct (main_unfold helper repr args check) as [[e H] | (m & Hnew & H)];
    rewrite H; [discriminate |].
  destruct (validated_state _ _ _ _ Hnew) as (v & Hst & Hv).
  destruct (params m !! "api_token") as [token|] eqn:Htok.
  - destruct (run_operation_outcome rest repr m v token Hst Htok Hv)
      as (o & -> & Ho & _). exact Ho.
  - rewrite run_missing_key by (by right). discriminate.
Qed.

(** X10: when the helper's argument spec declares [api_token], no
    invocation of [main] ends with [KeyError]: validation leaves every
    declared argument in the parameters, so the two [pop]s and the [del]
    of the module find their keys. *)
Theorem main_never_raises_KeyError helper rest repr
    (args : gmap string pyval) (check : bool) :
  is_Some (helper !! "api_token") →
  (exec (main helper rest repr args check)).1 ≠ Raised KeyError.
Proof.
  intros Hhelper.
  destruct (main_unfold helper repr args check) as [[e H] | (m & Hnew & H)];
    rewrite H; [discriminate |].
  destruct (validated_state _ _ _ _ Hnew) as (v & Hst & Hv).
  destruct (validated_keys helper args check m "api_token" Hnew)
    as [token Htok].
  { unfold argument_spec. apply lookup_union_is_Some. by right. }
  destruct (validated_keys helper args check m "uuid" Hnew) as [u Hu].
  { unfold argument_spec. apply lookup_union_is_Some. left. by eexists. }
  destruct (run_operation_outcome rest repr m v token Hst Htok Hv)
    as (o & -> & _ & Hk).
  intros ->. specialize (Hk eq_refl). congruence.
Qed.

Lemma main_never_raises_KeyError_witness :
  (exec (main healthchecksio_argument_spec (always example_created) no_repr
           example_present_args false)).1 ≠ Raised KeyError.
Proof.
  apply main_never_raises_KeyError. by eexists.
Defined.

(** ** Ping URLs the module cannot read *)

Lemma split_length (c : ascii) (s : string) :
  List.length (Py.split c s) = S (occurrences c s).
Proof.
  induction s as [|a s IH]; [reflexivity |]. simpl.
  destruct (bool_decide (a = c)); simpl; [by rewrite IH |].
  destruct (Py.split c s); simpl in *; congruence.
Qed.

(** X11: a ping URL with fewer than three ['/'] has no fourth segment:
    the run ends with [IndexError] after the request, whatever the status
    code. *)
Theorem create_short_ping_url_raises rest repr (m : AnsibleModule)
    (u : string) (tags : list string) (body : gmap string jvalue)
    (url : string) :
  check_mode m = false →
  ready m "present" u tags →
  json (rest (Request POST "checks/" (Some (create_body m tags))))
    = JDict body →
  body !! "ping_url" = Some (JStr url) →
  (occurrences "/" url < 3)%nat →
  exec (run rest repr m)
  = (Raised IndexError,
     [Request POST "checks/" (Some (create_body m tags))]).
Proof.
  intros Hcm Hr Hjson Hurl Hocc. enter_run Hr Hcm.
  unfold mbind, M_bind, ping_uuid. rewrite Hjson, Hurl.
  rewrite (lookup_ge_None_2 (Py.split "/" url) 3);
    [reflexivity | rewrite split_length; lia].
Qed.

Lemma create_short_ping_url_raises_witness :
  exec (run (always {| status_code := 201;
                       json := JDict {[ "ping_url" :=
                                          JStr "hc-ping.com/UUID-1" ]} |})
          no_repr (ready_module "present" ""))
  = (Raised IndexError,
     [Request POST "checks/"
        (Some (create_body (ready_module "present" "") ["db"; "nightly"]))]).
Proof.
  apply (create_short_ping_url_raises _ no_repr (ready_module "present" "")
           "" ["db"; "nightly"]
           {[ "ping_url" := JStr "hc-ping.com/UUID-1" ]}
           "hc-ping.com/UUID-1");
    [reflexivity | apply ready_module_ready | reflexivity | reflexivity
    | vm_compute; lia].
Defined.

(** X12: a [ping_url] that is there but is not a string (null, a number,
    a list, ...) has no [split]: the run ends with [AttributeError] after
    the request, whatever the status code. *)
Theorem create_ping_url_not_a_string_raises rest repr (m : AnsibleModule)
    (u : string) (tags : list string) (body : gmap string jvalue)
    (v : jvalue) :
  check_mode m = false →
  ready m "present" u tags →
  json (rest (Request POST "checks/" (Some (create_body m tags))))
    = JDict body →
  body !! "ping_url" = Some v →
  (∀ url, v ≠ JStr url) →
  exec (run rest repr m)
  = (Raised AttributeError,
     [Request POST "checks/" (Some (create_body m tags))]).
Proof.
  intros Hcm Hr Hjson Hurl Hv. enter_run Hr Hcm.
  unfold mbind, M_bind, ping_uuid. rewrite Hjson, Hurl.
  destruct v; try reflexivity. by destruct (Hv s).
Qed.

Lemma create_ping_url_not_a_string_raises_witness :
  exec (run (always {| status_code := 200;
                       json := JDict {[ "ping_url" := JNull ]} |})
          no_repr (ready_module "present" ""))
  = (Raised AttributeError,
     [Request POST "checks/"
        (Some (create_body (ready_module "present" "") ["db"; "nightly"]))]).
Proof.
  apply (create_ping_url_not_a_string_raises _ no_repr
           (ready_module "present" "") "" ["db"; "nightly"]
           {[ "ping_url" := JNull ]} JNull);
    [reflexivity | apply ready_module_ready | reflexivity | reflexivity
    | discriminate].
Defined.

(** ** Defaults *)

Lemma set_defaults_insert_default (spec : gmap string arg)
    (args : gmap string pyval) (k : string) (a : arg) :
  spec !! k = Some a → arg_default a ≠ PNone → args !! k = None →
  set_defaults true spec (<[k := arg_default a]> args)
  = set_defaults true spec args.
Proof.
  intros Hk Hd Hargs. unfold set_defaults. apply map_eq. intros i.
  rewrite !lookup_union, lookup_omap.
  destruct (decide (i = k)) as [-> |].
  - rewrite lookup_insert_eq, Hargs, Hk. simpl. by case_decide.
  - by rewrite lookup_insert_ne.
Qed.

(** X13: leaving an argument out is the same as passing its default: for
    an argument whose spec entry has a default, [main] ends the same way,
    with the same requests, whether the caller omits it or supplies the
    default value. *)
Theorem omitted_argument_is_its_default helper rest repr
    (args : gmap string pyval) (check : bool) (k : string) (a : arg) :
  argument_spec helper !! k = Some a →
  arg_default a ≠ PNone →
  args !! k = None →
  exec (main helper rest repr (<[k := arg_default a]> args) check)
  = exec (main helper rest repr args check).
Proof.
  intros Hk Hd Hargs.
  assert (Hnew : new_module (argument_spec helper) required_if
                   (<[k := arg_default a]> args) check
                 = new_module (argument_spec helper) required_if args check).
  { unfold new_module.
    rewrite (set_defaults_insert_default _ _ _ _ Hk Hd Hargs).
    assert (Hdom : bool_decide (dom (<[k := arg_default a]> args)
                                  ⊆ dom (argument_spec helper))
                   = bool_decide (dom args ⊆ dom (argument_spec helper))).
    { apply bool_decide_ext. rewrite dom_insert_L.
      assert (Hin : k ∈ dom (argument_spec helper))
        by (apply elem_of_dom; eauto).
      split; intros Hsub x Hx.
      - apply Hsub, elem_of_union. by right.
      - apply elem_of_union in Hx as [Hx | Hx]; [| by apply Hsub].
        by apply elem_of_singleton in Hx as ->. }
    by rewrite Hdom. }
  unfold exec, main, mbind, M_bind. by rewrite Hnew.
Qed.

Lemma omitted_argument_is_its_default_witness :
  exec (main healthchecksio_argument_spec (always example_created) no_repr
          (<["state" := PStr "present"]> {[ "name" := PStr "nightly-backup" ]})
          false)
  = exec (main healthchecksio_argument_spec (always example_created) no_repr
            {[ "name" := PStr "nightly-backup" ]} false).
Proof.
  apply (omitted_argument_is_its_default healthchecksio_argument_spec
           (always example_created) no_repr
           {[ "name" := PStr "nightly-backup" ]} false "state"
           (Arg (PStr "present") false
              (Some [PStr "present"; PStr "absent"; PStr "pause"])));
    [reflexivity | discriminate | reflexivity].
Defined.

(** ** Check mode, for every invocation *)

(** X14: in check mode no invocation of [main] sends a request, whatever
    its arguments, and none reports [changed=true]. *)
Theorem check_mode_changes_nothing helper rest repr
    (args : gmap string pyval) :
  (exec (main helper rest repr args true)).2 = []
  ∧ ∀ r, (exec (main helper rest repr args true)).1 = ExitJson r
         ∨ (exec (main helper rest repr args true)).1 = FailJson r →
         changed r = false.
Proof.
  split; [apply main_check_mode_log |].
  intros r Hout.
  pose proof (main_check_mode_log helper rest repr args) as Hlog.
  destruct (main_unfold helper repr args true) as [[e H] | (m & Hnew & H)];
    rewrite H in *.
  { destruct Hout as [Ho | Ho]; discriminate Ho. }
  destruct (run_endings repr m) as [(o & Hq & Hrun) | (rq & _ & Hrun)].
  - rewrite Hrun in Hout. simpl in Hout.
    destruct Hq as [-> | [-> | [-> | ->]]];
      destruct Hout as [Ho | Ho]; by simplify_eq.
  - destruct (Hrun rest) as (o & Ho & _). rewrite Ho in Hlog.
    discriminate Hlog.
Qed.

Lemma check_mode_changes_nothing_witness :
  changed (Result false None (Some (JDict ∅))) = false.
Proof.
  apply (proj2 (check_mode_changes_nothing healthchecksio_argument_spec
                  (always example_created) no_repr
                  {[ "state" := PStr "pause" ]})).
  left. vm_compute. reflexivity.
Defined.

(** ** Tags and identifiers that are not what the spec declares *)

Lemma run_create_steps rest repr (m : AnsibleModule) (token x : pyval) :
  check_mode m = false →
  params m !! "state" = Some (PStr "present") →
  params m !! "api_token" = Some token →
  params m !! "uuid" = Some x →
  run rest repr m [] =
    (joined ← join_tags (dict_get_or "tags" (PList []) (params m));
     response ← Checks.post rest "checks/"
       (Some (<["tags" := PStr joined]>
                (delete "uuid"
                   (delete "api_token" (delete "state" (params m))))));
     create_after response) [].
Proof.
  intros Hcm Hst Htok Hu. rewrite run_steps, Hst, Htok. simpl.
  unfold Checks.create, mbind, M_bind, dict_del, dict_get_or. simpl.
  rewrite Hcm. simpl. rewrite !popped_lookup by done. rewrite Hu.
  reflexivity.
Qed.

(** X15: tags that are neither a list nor a string ([None], a boolean, an
    integer) cannot be joined: outside check mode the run ends with
    [TypeError] before any request. *)
Theorem create_unjoinable_tags_raise rest repr (m : AnsibleModule)
    (token x v : pyval) :
  check_mode m = false →
  params m !! "state" = Some (PStr "present") →
  params m !! "api_token" = Some token →
  params m !! "uuid" = Some x →
  params m !! "tags" = Some v →
  (∀ l, v ≠ PList l) → (∀ s, v ≠ PStr s) →
  exec (run rest repr m) = (Raised TypeError, []).
Proof.
  intros Hcm Hst Htok Hu Ht Hl Hs. unfold exec.
  rewrite (run_create_steps _ _ _ _ _ Hcm Hst Htok Hu).
  unfold mbind, M_bind, dict_get_or. rewrite Ht. simpl.
  destruct v; try reflexivity; [by destruct (Hs s) | by destruct (Hl l)].
Qed.

Lemma create_unjoinable_tags_raise_witness :
  exec (run (always example_created) no_repr
          {| params := {[ "state" := PStr "present";
                          "api_token" := PStr "token";
                          "uuid" := PStr ""; "tags" := PNone ]};
             check_mode := false |})
  = (Raised TypeError, []).
Proof.
  apply (create_unjoinable_tags_raise _ _ _ (PStr "token") (PStr "") PNone);
    try reflexivity; discriminate.
Defined.

(** X16: without a [tags] entry [create] joins the empty list: the request
    is still sent, and its body holds [tags] as the empty string, as it
    does for an empty list of tags. *)
Theorem create_without_tags_sends_empty_string rest repr (m : AnsibleModule)
    (token x : pyval) :
  check_mode m = false →
  params m !! "state" = Some (PStr "present") →
  params m !! "api_token" = Some token →
  params m !! "uuid" = Some x →
  params m !! "tags" = None ∨ params m !! "tags" = Some (PList []) →
  ∃ d, (exec (run rest repr m)).2 = [Request POST "checks/" (Some d)]
       ∧ d !! "tags" = Some (PStr "").
Proof.
  intros Hcm Hst Htok Hu Ht. eexists. unfold exec.
  rewrite (run_create_steps _ _ _ _ _ Hcm Hst Htok Hu).
  unfold mbind, M_bind, dict_get_or, Checks.post, Checks.send.
  assert (Hj : join_tags (default (PList []) (params m !! "tags")) []
               = (Next "", [])) by (by destruct Ht as [-> | ->]).
  rewrite Hj. simpl.
  match goal with
  | |- context [create_after ?rsp ?log] =>
      destruct (create_after_answered rsp log) as (o & -> & _)
  end.
  split; [reflexivity | apply lookup_insert_eq].
Qed.

Lemma create_without_tags_sends_empty_string_witness :
  ∃ d, (exec (run (always example_created) no_repr
                {| params := {[ "state" := PStr "present";
                                "api_token" := PStr "token";
                                "uuid" := PStr "" ]};
                   check_mode := false |})).2
       = [Request POST "checks/" (Some d)]
       ∧ d !! "tags" = Some (PStr "").
Proof.
  apply (create_without_tags_sends_empty_string _ _ _ (PStr "token")
           (PStr ""));
    try reflexivity. by left.
Defined.

(** X17: [delete] and [pause] read the identifier with [params.get]: when
    it is missing, or [None], the request is still sent, addressed to
    [checks/None] (for pause [checks/None/pause]). *)
Theorem delete_pause_without_uuid_address_None rest repr
    (m : AnsibleModule) (token : pyval) :
  check_mode m = false →
  params m !! "api_token" = Some token →
  params m !! "uuid" = None ∨ params m !! "uuid" = Some PNone →
  (params m !! "state" = Some (PStr "absent") →
   (exec (run rest repr m)).2 = [Request DELETE "checks/None" None])
  ∧ (params m !! "state" = Some (PStr "pause") →
     (exec (run rest repr m)).2 = [Request POST "checks/None/pause" None]).
Proof.
  intros Hcm Htok Hu.
  assert (Hget : dict_get "uuid"
                   (delete "api_token" (delete "state" (params m))) = PNone).
  { unfold dict_get. rewrite popped_lookup by done.
    by destruct Hu as [-> | ->]. }
  split; intros Hst; unfold exec; rewrite run_steps, Hst, Htok; simpl.
  - unfold Checks.delete, mbind, M_bind. simpl. rewrite Hcm, Hget. simpl.
    repeat case_bool_decide; reflexivity.
  - unfold Checks.pause, mbind, M_bind. simpl. rewrite Hcm, Hget. simpl.
    repeat case_bool_decide; reflexivity.
Qed.

Lemma delete_pause_without_uuid_address_None_witness :
  (exec (run (always {| status_code := 404; json := JNull |}) no_repr
          {| params := {[ "state" := PStr "absent";
                          "api_token" := PStr "token" ]};
             check_mode := false |})).2
  = [Request DELETE "checks/None" None].
Proof.
  apply (delete_pause_without_uuid_address_None
           (always {| status_code := 404; json := JNull |}) no_repr
           {| params := {[ "state" := PStr "absent";
                           "api_token" := PStr "token" ]};
              check_mode := false |} (PStr "token"));
    [reflexivity | reflexivity | by left | reflexivity].
Defined.
